(** * Bisection root finder (appBiseccion.py): model and properties

    The script reads a formula, two bounds, a tolerance and an iteration
    cap, checks the sign condition at the bounds and then halves the
    interval until one of its stopping conditions holds.

    The script is read twice.  First in exact arithmetic: Python floats
    that hold a finite real are rationals [Q], compared with [Qeq]; the
    value [np.nan] returned by the guarded evaluator is [None].  Integers
    (the iteration counter and the cap) are [Z].  The list [rows] is a Rocq
    [list].  The properties of the control flow, and those stated in exact
    arithmetic, are proved on this reading.  Then in binary64, in module
    [Binary64]: floats round, underflow and overflow, ints are unbounded,
    and numpy's tests can raise; the properties that depend on the value
    of a computed product, and the runs on which rounding decides, are
    stated there. *)

From Stdlib Require Import QArith Qpower ZArith List Bool Lia Lqa.
From Stdlib Require Floats.PrimFloat Floats.FloatOps Floats.SpecFloat Floats.FloatAxioms.
Import ListNotations.

Open Scope Q_scope.

(** ** Values produced by the compiled formula *)

(** What a call of the lambdified formula can hand back as a number. *)
Inductive num : Type :=
| Real (r : Q)              (* a finite real, as a float holds it *)
| Complex (re im : Q)       (* a Python complex *)
| NaN                       (* float('nan') *)
| Inf (negative : bool).    (* float('inf') / float('-inf') *)

(** A Python call either returns or raises an [Exception]. *)
Inductive py (A : Type) : Type :=
| Returns (v : A)
| Raises.
Arguments Returns {A} v.
Arguments Raises {A}.

(** A float as the loop sees it: [np.nan] or a finite real. *)
Definition float : Type := option Q.
Definition nan : float := None.

Definition isnan (v : float) : bool :=
  match v with None => true | Some _ => false end.

(** [u * v] on floats: a nan operand gives nan. *)
Definition fmul (u v : float) : float :=
  match u, v with
  | Some p, Some q => Some (p * q)
  | _, _ => nan
  end.

Definition Qltb (p q : Q) : bool := negb (Qle_bool q p).

(** [v < 0] and [v > 0] on floats: every comparison with nan is False. *)
Definition flt0 (v : float) : bool :=
  match v with Some q => Qltb q 0 | None => false end.
Definition fgt0 (v : float) : bool :=
  match v with Some q => Qltb 0 q | None => false end.

(** ** Data of a run *)

(** [row_data = [iteraciones, a_iter, b_iter, c, x_new, f_x_new]] *)
Record Row : Type := mkRow {
  row_n : Z;
  row_a : Q;
  row_b : Q;
  row_c : Q;
  row_x : Q;
  row_fx : Q
}.

Inductive Reason : Type :=
| EndpointUndefined         (* np.isnan(f_a) or np.isnan(f_b) *)
| SameSign.                 (* f_a * f_b > 0 *)

(** How a run ends, with the values its message interpolates. *)
Inductive Outcome : Type :=
| ExactRoot (x_new : Q) (iteraciones : Z)
| ApproximateRoot (x_new : Q) (tol : Q) (iteraciones : Z)
| MaxIterationsReached (max_iter : Z) (x_new : Q)
| UndefinedEncountered (x_new : Q) (iteraciones : Z)
| InvalidBracket (why : Reason).

(** The script's variables: the widget values [a], [b], [tol], [max_iter]
    and the loop's own [iteraciones], [rows], [a_iter], [b_iter]. *)
Record Env : Type := mkEnv {
  a : Q;
  b : Q;
  tol : Q;
  max_iter : Z;
  iteraciones : Z;
  rows : list Row;
  a_iter : Q;
  b_iter : Q
}.

(** One pass of the [while True] body either falls through to the next
    pass or leaves through one of its four [break]s. *)
Inductive Step : Type :=
| Continue (e : Env)
| Break (e : Env) (o : Outcome).

(** A run either stops at the bracket check (no loop variable exists yet)
    or leaves the loop with its variables and an outcome. *)
Inductive Result : Type :=
| Stopped (o : Outcome)
| Finished (e : Env) (o : Outcome).

Definition outcome (r : Result) : Outcome :=
  match r with Stopped o => o | Finished _ o => o end.

(** The rows handed to the table; none when the run stopped before the loop. *)
Definition trace (r : Result) : list Row :=
  match r with Stopped _ => [] | Finished e _ => rows e end.

(** [c] and [x_new] as the next pass computes them from the bracket. *)
Definition half_width (e : Env) : Q := (b_iter e - a_iter e) / 2.
Definition midpoint (e : Env) : Q := a_iter e + half_width e.

Section Biseccion.

(** The compiled formula [f_lambda = sp.lambdify(x_sym, f_expr, "math")]. *)
Variable f_lambda : Q -> py num.

(** ** Guarded evaluator (lines 74-81) *)
Definition f (x_val : Q) : float :=
  match f_lambda x_val with                 (* try: *)
  | Returns resultado =>
      match resultado with
      | Complex _ _ => nan                  (* isinstance(resultado, complex) *)
      | NaN => nan                          (* np.isnan(resultado) *)
      | Inf _ => nan                        (* np.isinf(resultado) *)
      | Real r => Some r                    (* return resultado *)
      end
  | Raises => nan                           (* except Exception: return np.nan *)
  end.

(** ** Bracket check (lines 84-102): [Some o] when the script stops with [o]. *)
Definition check_bracket (a b : Q) : option Outcome :=
  let f_a := f a in
  let f_b := f b in
  if isnan f_a || isnan f_b then Some (InvalidBracket EndpointUndefined)
  else if fgt0 (fmul f_a f_b) then Some (InvalidBracket SameSign)
  else None.

(** ** Loop body (lines 118-154)

    The body assigns [iteraciones], [rows], [a_iter] and [b_iter] only;
    [assign] writes those four and leaves the widget values as they are. *)
Definition assign (e : Env) (n : Z) (rs : list Row) (ai bi : Q) : Env :=
  mkEnv (a e) (b e) (tol e) (max_iter e) n rs ai bi.

Definition loop_body (e : Env) : Step :=
  let iteraciones := (iteraciones e + 1)%Z in
  let c := (b_iter e - a_iter e) / 2 in
  let x_new := a_iter e + c in
  match f x_new with
  | None =>                                   (* np.isnan(f_x_new): break *)
      Break (assign e iteraciones (rows e) (a_iter e) (b_iter e))
            (UndefinedEncountered x_new iteraciones)
  | Some f_x_new =>
      let row_data := mkRow iteraciones (a_iter e) (b_iter e) c x_new f_x_new in
      let rows := rows e ++ [row_data] in
      let e' := assign e iteraciones rows (a_iter e) (b_iter e) in
      if Qeq_bool f_x_new 0 then
        Break e' (ExactRoot x_new iteraciones)
      else if Qltb c (tol e) then
        Break e' (ApproximateRoot x_new (tol e) iteraciones)
      else if (iteraciones >=? max_iter e)%Z then
        Break e' (MaxIterationsReached (max_iter e) x_new)
      else if flt0 (fmul (f (a_iter e)) (Some f_x_new)) then
        Continue (assign e iteraciones rows (a_iter e) x_new)   (* b_iter = x_new *)
      else
        Continue (assign e iteraciones rows x_new (b_iter e))   (* a_iter = x_new *)
  end.

(** ** One pass of the loop, case by case

    [pass e s] lists the six ways through the body: the four breaks and
    the two assignments of the interval selection. *)
Inductive pass (e : Env) : Step -> Prop :=
| pass_undefined :
    f (midpoint e) = None ->
    pass e (Break (assign e (iteraciones e + 1)%Z (rows e) (a_iter e) (b_iter e))
                  (UndefinedEncountered (midpoint e) (iteraciones e + 1)))
| pass_exact v :
    f (midpoint e) = Some v -> v == 0 ->
    pass e (Break (assign e (iteraciones e + 1)%Z
                     (rows e ++ [mkRow (iteraciones e + 1) (a_iter e) (b_iter e)
                       (half_width e) (midpoint e) v])
                     (a_iter e) (b_iter e))
                  (ExactRoot (midpoint e) (iteraciones e + 1)))
| pass_tolerance v :
    f (midpoint e) = Some v -> ~ v == 0 -> half_width e < tol e ->
    pass e (Break (assign e (iteraciones e + 1)%Z
                     (rows e ++ [mkRow (iteraciones e + 1) (a_iter e) (b_iter e)
                       (half_width e) (midpoint e) v])
                     (a_iter e) (b_iter e))
                  (ApproximateRoot (midpoint e) (tol e) (iteraciones e + 1)))
| pass_max_iter v :
    f (midpoint e) = Some v -> ~ v == 0 -> tol e <= half_width e ->
    (max_iter e <= iteraciones e + 1)%Z ->
    pass e (Break (assign e (iteraciones e + 1)%Z
                     (rows e ++ [mkRow (iteraciones e + 1) (a_iter e) (b_iter e)
                       (half_width e) (midpoint e) v])
                     (a_iter e) (b_iter e))
                  (MaxIterationsReached (max_iter e) (midpoint e)))
| pass_left v :
    f (midpoint e) = Some v -> ~ v == 0 -> tol e <= half_width e ->
    (iteraciones e + 1 < max_iter e)%Z ->
    flt0 (fmul (f (a_iter e)) (Some v)) = true ->
    pass e (Continue (assign e (iteraciones e + 1)%Z
                     (rows e ++ [mkRow (iteraciones e + 1) (a_iter e) (b_iter e)
                       (half_width e) (midpoint e) v])
                     (a_iter e) (midpoint e)))
| pass_right v :
    f (midpoint e) = Some v -> ~ v == 0 -> tol e <= half_width e ->
    (iteraciones e + 1 < max_iter e)%Z ->
    flt0 (fmul (f (a_iter e)) (Some v)) = false ->
    pass e (Continue (assign e (iteraciones e + 1)%Z
                     (rows e ++ [mkRow (iteraciones e + 1) (a_iter e) (b_iter e)
                       (half_width e) (midpoint e) v])
                     (midpoint e) (b_iter e))).

(** ** [while True] (line 117), with fuel: [None] only when fuel runs out. *)
Fixpoint while_true (fuel : nat) (e : Env) : option Result :=
  match fuel with
  | O => None
  | S fuel' =>
      match loop_body e with
      | Break e' o => Some (Finished e' o)
      | Continue e' => while_true fuel' e'
      end
  end.

(** Lines 106-111: the loop's variables before the first pass. *)
Definition init (a b tol : Q) (max_iter : Z) : Env :=
  mkEnv a b tol max_iter 0 [] a b.

(** ** The run started by the button (lines 56-163). *)
Definition biseccion (fuel : nat) (a b tol : Q) (max_iter : Z) : option Result :=
  match check_bracket a b with
  | Some o => Some (Stopped o)
  | None => while_true fuel (init a b tol max_iter)
  end.

End Biseccion.

Arguments assign e n rs ai bi /.

(** ** Quantities the statements speak about *)

(** The iteration numbers [1 .. n]. *)
Definition indices (n : Z) : list Z := map Z.of_nat (seq 1 (Z.to_nat n)).

(** A row is coherent when its columns are related as one pass computes
    them: [c = (b - a) / 2], [x = a + c] and [f x] is the defined value. *)
Definition row_coherent (f_lambda : Q -> py num) (r : Row) : Prop :=
  row_c r = (row_b r - row_a r) / 2 /\
  row_x r = row_a r + row_c r /\
  f f_lambda (row_x r) = Some (row_fx r).

(** The loop left through the tolerance test [c < tol]. *)
Definition tolerance_exit (o : Outcome) : bool :=
  match o with ApproximateRoot _ _ _ => true | _ => false end.

(** The bracket of [r'] is the left or the right half of the bracket of
    [r]: one end kept, the other moved to the midpoint [row_x r]. *)
Definition halves (r r' : Row) : Prop :=
  (row_a r' = row_a r /\ row_b r' = row_x r) \/
  (row_a r' = row_x r /\ row_b r' = row_b r).

(** Every row follows from the one before it by [halves]. *)
Fixpoint chained (rs : list Row) : Prop :=
  match rs with
  | r :: (r' :: _) as tl => halves r r' /\ chained tl
  | _ => True
  end.

(** The last row appended, if any. *)
Fixpoint final_row (rs : list Row) : option Row :=
  match rs with
  | [] => None
  | [r] => Some r
  | _ :: tl => final_row tl
  end.

(** ** Formulas used as concrete inputs *)

(** [f(x) = x] *)
Definition f_identity (x : Q) : py num := Returns (Real x).

(** [f(x) = x - 1] *)
Definition f_minus_one (x : Q) : py num := Returns (Real (x - 1)).

(** [f(x) = x**2 - 2] *)
Definition f_square_minus_two (x : Q) : py num := Returns (Real (x * x - 2)).

(** [f(x) = 1/x]: Python raises ZeroDivisionError at 0. *)
Definition f_inverse (x : Q) : py num :=
  if Qeq_bool x 0 then Raises else Returns (Real (/ x)).

(** * The script in binary64

    The same lines of the script with Python's own numbers: a float is an
    IEEE binary64 value (rounding, signed zeros, infinities, nan), an int is
    unbounded, the formula may return a complex or no number at all, and
    every step that can raise in Python can raise here.  The properties
    that depend on how a product or a difference is rounded are stated on
    this model; the model above reads the same lines in exact arithmetic. *)

Module Binary64.

Import PrimFloat FloatOps SpecFloat.
Local Open Scope float_scope.

(** ** Python values and calls *)

(** What a call of the compiled formula can hand back: a Python number,
    or [None] for the objects on which numpy's tests raise.  Sequences and
    arrays, which numpy tests element by element, are not modelled. *)
Inductive pyval : Type :=
| PyFloat (x : float)           (* a float: finite, inf, -inf or nan *)
| PyInt (n : Z)                 (* an int (a bool counts as 0 or 1) *)
| PyComplex (re im : float)     (* a complex *)
| PyNone.                       (* None: an object that is no number *)

Definition bind {A B : Type} (c : py A) (k : A -> py B) : py B :=
  match c with
  | Returns v => k v
  | Raises => Raises
  end.

Notation "x <- c ;; k" := (bind c (fun x => k))
  (at level 61, c at next level, right associativity).

(** [try: body except Exception: handler] *)
Definition try_except {A : Type} (body : py A) (handler : A) : A :=
  match body with
  | Returns v => v
  | Raises => handler
  end.

Definition np_nan : pyval := PyFloat nan.

(** numpy reads a Python int as int64 or uint64 when it fits and as an
    object otherwise; its tests raise TypeError on objects. *)
Definition fits_64_bits (n : Z) : bool :=
  ((- 2 ^ 63 <=? n) && (n <? 2 ^ 64))%Z.

Definition isinstance_complex (v : pyval) : bool :=
  match v with PyComplex _ _ => true | _ => false end.

Definition np_isnan (v : pyval) : py bool :=
  match v with
  | PyFloat x => Returns (is_nan x)
  | PyInt n => if fits_64_bits n then Returns false else Raises
  | PyComplex re im => Returns (is_nan re || is_nan im)
  | PyNone => Raises
  end.

Definition np_isinf (v : pyval) : py bool :=
  match v with
  | PyFloat x => Returns (is_infinity x)
  | PyInt n => if fits_64_bits n then Returns false else Raises
  | PyComplex re im => Returns (is_infinity re || is_infinity im)
  | PyNone => Raises
  end.

(** [float(n)]: the nearest binary64 value, ties to even; OverflowError
    when there is none. *)
Definition float_of_int (n : Z) : py float :=
  let x := SF2Prim (binary_normalize prec emax n 0 false) in
  if is_infinity x then Raises else Returns x.

Definition as_complex (v : pyval) : py (float * float) :=
  match v with
  | PyFloat x => Returns (x, zero)
  | PyInt n => x <- float_of_int n ;; Returns (x, zero)
  | PyComplex re im => Returns (re, im)
  | PyNone => Raises
  end.

(** [u * v]: ints multiply exactly, an int meeting a float is converted
    first, a complex operand makes the product complex, None raises. *)
Definition py_mul (u v : pyval) : py pyval :=
  match u, v with
  | PyFloat x, PyFloat y => Returns (PyFloat (x * y))
  | PyInt n, PyInt m => Returns (PyInt (n * m))
  | PyInt n, PyFloat y => x <- float_of_int n ;; Returns (PyFloat (x * y))
  | PyFloat x, PyInt m => y <- float_of_int m ;; Returns (PyFloat (x * y))
  | PyNone, _ | _, PyNone => Raises
  | _, _ =>
      p <- as_complex u ;;
      q <- as_complex v ;;
      Returns (PyComplex (fst p * fst q - snd p * snd q)
                         (fst p * snd q + snd p * fst q))
  end.

(** [v > 0] and [v < 0]: False on nan, TypeError on a complex or None. *)
Definition py_gt0 (v : pyval) : py bool :=
  match v with
  | PyFloat x => Returns (zero <? x)
  | PyInt n => Returns (0 <? n)%Z
  | PyComplex _ _ | PyNone => Raises
  end.

Definition py_lt0 (v : pyval) : py bool :=
  match v with
  | PyFloat x => Returns (x <? zero)
  | PyInt n => Returns (n <? 0)%Z
  | PyComplex _ _ | PyNone => Raises
  end.

(** [v == 0]: True on 0.0 and -0.0, False on nan and on None. *)
Definition py_eq0 (v : pyval) : py bool :=
  match v with
  | PyFloat x => Returns (x =? zero)
  | PyInt n => Returns (n =? 0)%Z
  | PyComplex re im => Returns ((re =? zero) && (im =? zero))
  | PyNone => Returns false
  end.

(** ** Data of a run *)

Record Row : Type := mkRow {
  row_n : Z;
  row_a : float;
  row_b : float;
  row_c : float;
  row_x : float;
  row_fx : pyval
}.

Inductive Outcome : Type :=
| ExactRoot (x_new : float) (iteraciones : Z)
| ApproximateRoot (x_new : float) (tol : float) (iteraciones : Z)
| MaxIterationsReached (max_iter : Z) (x_new : float)
| UndefinedEncountered (x_new : float) (iteraciones : Z)
| InvalidBracket (why : Reason)
| EvaluationFailure             (* the handler of line 100 *)
| CalculationError.             (* the handler of line 165 *)

Record Env : Type := mkEnv {
  a : float;
  b : float;
  tol : float;
  max_iter : Z;
  iteraciones : Z;
  rows : list Row;
  a_iter : float;
  b_iter : float
}.

Inductive Step : Type :=
| Continue (e : Env)
| Break (e : Env) (o : Outcome).

(** A run stops at the bracket check, leaves the loop through a [break],
    or ends in the handler of line 165, which shows no table. *)
Inductive Result : Type :=
| Stopped (o : Outcome)
| Finished (e : Env) (o : Outcome)
| Crashed.

Definition outcome (r : Result) : Outcome :=
  match r with
  | Stopped o => o
  | Finished _ o => o
  | Crashed => CalculationError
  end.

Definition trace (r : Result) : list Row :=
  match r with
  | Finished e _ => rows e
  | Stopped _ | Crashed => []
  end.

(** The exact real a value stands for, when it stands for one. *)
Definition real_of (v : pyval) : option Q :=
  match v with
  | PyFloat x =>
      match Prim2SF x with
      | S754_zero _ => Some 0%Q
      | S754_finite s m e =>
          Some (inject_Z (if s then Z.neg m else Z.pos m) * 2 ^ e)%Q
      | S754_infinity _ | S754_nan => None
      end
  | PyInt n => Some (inject_Z n)
  | PyComplex _ _ | PyNone => None
  end.

Section Engine.

(** The compiled formula [f_lambda = sp.lambdify(x_sym, f_expr, "math")]. *)
Variable f_lambda : float -> py pyval.

(** ** Guarded evaluator (lines 74-81) *)
Definition f (x_val : float) : pyval :=
  try_except
    (resultado <- f_lambda x_val ;;
     if isinstance_complex resultado then Returns np_nan else
     is_nan <- np_isnan resultado ;;
     if is_nan then Returns np_nan else
     is_inf <- np_isinf resultado ;;
     if is_inf then Returns np_nan else
     Returns resultado)
    np_nan.

(** ** Bracket check (lines 84-102): [Some o] when the script stops with [o]. *)
Definition check_bracket (a b : float) : option Outcome :=
  try_except
    (let f_a := f a in
     let f_b := f b in
     nan_a <- np_isnan f_a ;;
     nan_ab <- (if nan_a then Returns true else np_isnan f_b) ;;
     if nan_ab then Returns (Some (InvalidBracket EndpointUndefined)) else
     product <- py_mul f_a f_b ;;
     positive <- py_gt0 product ;;
     if positive then Returns (Some (InvalidBracket SameSign))
     else Returns None)
    (Some EvaluationFailure).

(** ** Loop body (lines 118-154) *)
Definition assign (e : Env) (n : Z) (rs : list Row) (ai bi : float) : Env :=
  mkEnv (a e) (b e) (tol e) (max_iter e) n rs ai bi.

Definition loop_body (e : Env) : py Step :=
  let iteraciones := (iteraciones e + 1)%Z in
  let c := (b_iter e - a_iter e) / two in
  let x_new := a_iter e + c in
  let f_x_new := f x_new in
  undefined <- np_isnan f_x_new ;;
  if undefined then
    Returns (Break (assign e iteraciones (rows e) (a_iter e) (b_iter e))
                   (UndefinedEncountered x_new iteraciones))
  else
    let row_data := mkRow iteraciones (a_iter e) (b_iter e) c x_new f_x_new in
    let rows := rows e ++ [row_data] in
    let e' := assign e iteraciones rows (a_iter e) (b_iter e) in
    exact <- py_eq0 f_x_new ;;
    if exact then
      Returns (Break e' (ExactRoot x_new iteraciones))
    else if c <? tol e then
      Returns (Break e' (ApproximateRoot x_new (tol e) iteraciones))
    else if (iteraciones >=? max_iter e)%Z then
      Returns (Break e' (MaxIterationsReached (max_iter e) x_new))
    else
      product <- py_mul (f (a_iter e)) f_x_new ;;
      negative <- py_lt0 product ;;
      if negative then
        Returns (Continue (assign e iteraciones rows (a_iter e) x_new))
      else
        Returns (Continue (assign e iteraciones rows x_new (b_iter e))).

(** ** [while True] (line 117), with fuel: [None] only when fuel runs out. *)
Fixpoint while_true (fuel : nat) (e : Env) : option (py (Env * Outcome)) :=
  match fuel with
  | O => None
  | S fuel' =>
      match loop_body e with
      | Raises => Some Raises
      | Returns (Break e' o) => Some (Returns (e', o))
      | Returns (Continue e') => while_true fuel' e'
      end
  end.

Definition init (a b tol : float) (max_iter : Z) : Env :=
  mkEnv a b tol max_iter 0 [] a b.

(** ** The run started by the button (lines 56-167). *)
Definition biseccion (fuel : nat) (a b tol : float) (max_iter : Z)
  : option Result :=
  match check_bracket a b with
  | Some o => Some (Stopped o)
  | None =>
      match while_true fuel (init a b tol max_iter) with
      | None => None
      | Some (Returns (e, o)) => Some (Finished e o)
      | Some Raises => Some Crashed
      end
  end.

(** ** Relations between rows *)

(** The bracket [(a', b')] is the one the selection of lines 151-154 makes
    after the pass recorded in [r]: from the product it computes, [b]
    moves to the midpoint when the product is below zero and [a] moves
    otherwise. *)
Definition selected (r : Row) (a' b' : float) : Prop :=
  exists product negative,
    py_mul (f (row_a r)) (row_fx r) = Returns product /\
    py_lt0 product = Returns negative /\
    if negative then a' = row_a r /\ b' = row_x r
    else a' = row_x r /\ b' = row_b r.

(** Every row holds the bracket selected after the row before it. *)
Fixpoint rows_selected (rs : list Row) : Prop :=
  match rs with
  | r :: (r' :: _) as tl => selected r (row_a r') (row_b r') /\ rows_selected tl
  | _ => True
  end.

(** The results for which [f] gives nan, in the words of section 4.2
    with the values on which the tests of line 77 themselves raise. *)
Definition undefined_result (r : py pyval) : bool :=
  match r with
  | Raises => true
  | Returns (PyComplex _ _) => true
  | Returns (PyFloat x) => is_nan x || is_infinity x
  | Returns (PyInt n) => negb (fits_64_bits n)
  | Returns PyNone => true
  end.

End Engine.

Fixpoint final_row (rs : list Row) : option Row :=
  match rs with
  | [] => None
  | [r] => Some r
  | _ :: tl => final_row tl
  end.

(** ** Formulas used as concrete inputs *)

(** [f(x) = x] *)
Definition f_identity (x : float) : py pyval := Returns (PyFloat x).

(** [f(x) = x + 3] *)
Definition f_plus_three (x : float) : py pyval := Returns (PyFloat (x + 3)).

(** [f(x) = x - 1.25] *)
Definition f_minus_five_quarters (x : float) : py pyval :=
  Returns (PyFloat (x - 1.25)).

(** [f(x) = x * 2**(-600)] *)
Definition f_tiny_slope (x : float) : py pyval :=
  Returns (PyFloat (x * 0x1p-600)).

(** [f(x) = (x - 1.25) * 2**(-600)] *)
Definition f_tiny_crossing (x : float) : py pyval :=
  Returns (PyFloat ((x - 1.25) * 0x1p-600)).

(** [f(x) = 2**64]: the compiled formula returns the int. *)
Definition f_big_int (x : float) : py pyval := Returns (PyInt (2 ^ 64)).

(** [2**1023], the largest power of two that is a float. *)
Definition largest_power : float := 0x1p1023.

(** [f(x) = Piecewise((1, x < 0), (-1, x < 1e308), (1, True))] *)
Definition f_three_steps (x : float) : py pyval :=
  if x <? 0 then Returns (PyInt 1)
  else if x <? 0x1.1ccf385ebc8ap+1023 (* 1e308 *) then Returns (PyInt (-1))
  else Returns (PyInt 1).

End Binary64.

(** * Properties *)

(** ** Comparisons *)

Lemma Qltb_lt (p q : Q) : Qltb p q = true <-> p < q.
Proof.
  unfold Qltb. rewrite negb_true_iff. split.
  - intros H. apply Qnot_le_lt. intros Hle.
    apply Qle_bool_iff in Hle. congruence.
  - intros H. destruct (Qle_bool q p) eqn:E; [|reflexivity].
    apply Qle_bool_iff in E. exfalso. exact (Qlt_not_le _ _ H E).
Qed.

Lemma Qltb_ge (p q : Q) : Qltb p q = false <-> q <= p.
Proof.
  unfold Qltb. rewrite negb_false_iff. apply Qle_bool_iff.
Qed.

Lemma Qeq_bool_false (p q : Q) : Qeq_bool p q = false <-> ~ p == q.
Proof.
  split.
  - intros H Heq. apply Qeq_bool_iff in Heq. congruence.
  - intros H. destruct (Qeq_bool p q) eqn:E; [|reflexivity].
    apply Qeq_bool_iff in E. contradiction.
Qed.

Lemma pow2_succ (n : Z) : (0 <= n)%Z -> 2 ^ (n + 1) == 2 ^ n * 2.
Proof.
  intros _. rewrite Qpower_plus by discriminate. reflexivity.
Qed.

Lemma pow2_nonzero (n : Z) : ~ 2 ^ n == 0.
Proof.
  apply Qpower_not_0. discriminate.
Qed.

Lemma indices_succ (n : Z) :
  (0 <= n)%Z -> indices (n + 1) = indices n ++ [(n + 1)%Z].
Proof.
  intros Hn. unfold indices.
  replace (Z.to_nat (n + 1)) with (S (Z.to_nat n)) by lia.
  rewrite seq_S, map_app. simpl. do 3 f_equal. lia.
Qed.

Lemma Forall_snoc {A : Type} (P : A -> Prop) (l : list A) (x : A) :
  Forall P l -> P x -> Forall P (l ++ [x]).
Proof.
  intros Hl Hx. apply Forall_app. split; [assumption|].
  constructor; [assumption|constructor].
Qed.

Section Properties.

Variable f_lambda : Q -> py num.

Local Abbreviation f := (f f_lambda).
Local Abbreviation loop_body := (loop_body f_lambda).
Local Abbreviation while_true := (while_true f_lambda).
Local Abbreviation check_bracket := (check_bracket f_lambda).
Local Abbreviation biseccion := (biseccion f_lambda).

Lemma loop_body_pass (e : Env) : pass f_lambda e (loop_body e).
Proof.
  unfold loop_body.
  change (a_iter e + (b_iter e - a_iter e) / 2) with (midpoint e).
  change ((b_iter e - a_iter e) / 2) with (half_width e).
  destruct (f (midpoint e)) as [v|] eqn:Hv; [|now apply pass_undefined].
  destruct (Qeq_bool v 0) eqn:Hz.
  { apply pass_exact; [assumption|now apply Qeq_bool_iff]. }
  apply Qeq_bool_false in Hz.
  destruct (Qltb (half_width e) (tol e)) eqn:Ht.
  { apply pass_tolerance; [assumption..|now apply Qltb_lt]. }
  apply Qltb_ge in Ht.
  destruct (iteraciones e + 1 >=? max_iter e)%Z eqn:Hm.
  { apply pass_max_iter; try assumption. apply Z.geb_le in Hm. lia. }
  assert (iteraciones e + 1 < max_iter e)%Z.
  { destruct (Z.geb_spec (iteraciones e + 1) (max_iter e)); [discriminate|lia]. }
  destruct (flt0 (fmul (f (a_iter e)) (Some v))) eqn:Hs.
  - now apply pass_left.
  - now apply pass_right.
Qed.

(** ** Invariants of the loop *)

Lemma while_true_inv (Inv : Env -> Prop) (Post : Env -> Outcome -> Prop) :
  (forall e e', Inv e -> loop_body e = Continue e' -> Inv e') ->
  (forall e e' o, Inv e -> loop_body e = Break e' o -> Post e' o) ->
  forall fuel e r, Inv e -> while_true fuel e = Some r ->
  exists e' o, r = Finished e' o /\ Post e' o.
Proof.
  intros Hstep Hexit fuel.
  induction fuel as [|fuel IH]; intros e r Hinv Hrun; simpl in Hrun.
  - discriminate.
  - destruct (loop_body e) as [e'|e' o] eqn:Hb.
    + eapply IH; [|eassumption]. eapply Hstep; eassumption.
    + injection Hrun as <-. exists e', o. split; [reflexivity|].
      eapply Hexit; eassumption.
Qed.

Lemma while_true_more_fuel (fuel fuel' : nat) (e : Env) (r : Result) :
  (fuel <= fuel')%nat -> while_true fuel e = Some r -> while_true fuel' e = Some r.
Proof.
  revert fuel' e. induction fuel as [|fuel IH]; intros fuel' e Hle Hrun.
  - discriminate.
  - destruct fuel' as [|fuel']; [lia|]. simpl in *.
    destruct (loop_body e); [|assumption].
    apply IH; [lia|assumption].
Qed.

Lemma while_true_terminates (fuel : nat) (e : Env) :
  (1 <= fuel)%nat -> (Z.to_nat (max_iter e - iteraciones e) <= fuel)%nat ->
  exists r, while_true fuel e = Some r.
Proof.
  revert e. induction fuel as [|fuel IH]; intros e H1 Hfuel; [lia|].
  simpl. pose proof (loop_body_pass e) as Hp.
  destruct (loop_body e) as [e'|e' o]; [|eauto].
  assert (iteraciones e' = iteraciones e + 1 /\ max_iter e' = max_iter e
          /\ iteraciones e + 1 < max_iter e)%Z as (Hi & Hm & Hlt)
    by (inversion Hp; subst; simpl; auto).
  apply IH; rewrite ?Hi, ?Hm; lia.
Qed.

(** Linear arithmetic on brackets: [x / 2] is read as [x * (1 # 2)]. *)
Ltac bracket_lra :=
  unfold midpoint, half_width, Qdiv in *;
  change (/ 2) with (1 # 2) in *; lra.

Ltac by_pass e H :=
  let Hp := fresh "Hp" in
  pose proof (loop_body_pass e) as Hp; rewrite H in Hp;
  inversion Hp; subst; clear Hp; simpl in *.

(** A run that passes the bracket check has exactly one result, and
    [max 1 max_iter] passes of fuel are enough to reach it. *)
Lemma run_result (a0 b0 tol0 : Q) (max_iter0 : Z) :
  check_bracket a0 b0 = None ->
  exists e o,
    (forall fuel, (Z.to_nat (Z.max 1 max_iter0) <= fuel)%nat ->
       biseccion fuel a0 b0 tol0 max_iter0 = Some (Finished e o)) /\
    (forall fuel r, biseccion fuel a0 b0 tol0 max_iter0 = Some r ->
       r = Finished e o).
Proof.
  intros Hc. unfold biseccion. rewrite Hc.
  set (e0 := init a0 b0 tol0 max_iter0).
  set (N := Z.to_nat (Z.max 1 max_iter0)).
  destruct (while_true_terminates N e0) as [r Hr];
    [subst N; lia | subst N e0; simpl; lia |].
  destruct (while_true_inv (fun _ => True) (fun _ _ => True)
              ltac:(auto) ltac:(auto) N e0 r I Hr) as (e & o & -> & _).
  exists e, o. split.
  - intros fuel Hle. eapply while_true_more_fuel; eassumption.
  - intros fuel r Hrun.
    apply (while_true_more_fuel _ (Nat.max fuel N)) in Hrun; [|lia].
    apply (while_true_more_fuel _ (Nat.max fuel N)) in Hr; [|lia].
    congruence.
Qed.

(** C1. Termination bound: with [tol > 0] and [max_iter >= 1], a run that
    passes the bracket check leaves the loop, and it does so with the
    counter between 1 and [max_iter]; [max_iter] passes of fuel suffice and
    no more than [max_iter] rows are recorded. *)
Theorem termination_bound (a0 b0 tol0 : Q) (max_iter0 : Z) :
  0 < tol0 -> (1 <= max_iter0)%Z -> check_bracket a0 b0 = None ->
  exists e o,
    (forall fuel, (Z.to_nat max_iter0 <= fuel)%nat ->
       biseccion fuel a0 b0 tol0 max_iter0 = Some (Finished e o)) /\
    (forall fuel r, biseccion fuel a0 b0 tol0 max_iter0 = Some r ->
       r = Finished e o) /\
    (1 <= iteraciones e <= max_iter0)%Z /\
    Forall (fun row => (1 <= row_n row <= max_iter0)%Z) (rows e).
Proof.
  intros _ Hmax Hc.
  destruct (run_result a0 b0 tol0 max_iter0 Hc) as (e & o & Hrun & Huniq).
  exists e, o. split; [|split; [exact Huniq|]].
  - intros fuel Hle. apply Hrun. lia.
  - specialize (Hrun _ (Nat.le_refl _)). unfold biseccion in Hrun.
    rewrite Hc in Hrun.
    set (Inv := fun e : Env =>
      max_iter e = max_iter0 /\
      (0 <= iteraciones e)%Z /\
      (iteraciones e = 0 \/ iteraciones e < max_iter0)%Z /\
      Forall (fun row => (1 <= row_n row <= max_iter0)%Z) (rows e)).
    set (Post := fun (e : Env) (_ : Outcome) =>
      (1 <= iteraciones e <= max_iter0)%Z /\
      Forall (fun row => (1 <= row_n row <= max_iter0)%Z) (rows e)).
    destruct (while_true_inv Inv Post) with (4 := Hrun)
      as (e' & o' & Heq & Hpost).
    + intros e1 e2 (Hm & H0 & Hlt & Hrows) Hb. unfold Inv.
      by_pass e1 Hb; repeat split; try reflexivity; try lia;
        (apply Forall_snoc; [assumption|simpl; lia]).
    + intros e1 e2 o2 (Hm & H0 & Hlt & Hrows) Hb. unfold Post.
      by_pass e1 Hb; (split; [lia|]); try assumption;
        (apply Forall_snoc; [assumption|simpl; lia]).
    + unfold Inv. simpl. repeat split; auto; lia.
    + injection Heq as <- <-. exact Hpost.
Qed.

(** Halving: if the bracket is [w / 2^n] wide, the next [c] is [w / 2^(n+1)]. *)
Lemma half_width_next (e : Env) (w : Q) (n : Z) :
  (0 <= n)%Z -> b_iter e - a_iter e == w / 2 ^ n ->
  half_width e == w / 2 ^ (n + 1).
Proof.
  intros Hn Hw. unfold half_width. rewrite Hw, pow2_succ by assumption.
  field. apply pow2_nonzero.
Qed.

(** C2. Monotonic width: in every run, each recorded row holds
    [c = (b0 - a0) / 2^n] for its iteration number [n], and so does the
    [c] of the pass on which the loop was left. *)
Theorem half_width_halves (fuel : nat) (a0 b0 tol0 : Q) (max_iter0 : Z) (r : Result) :
  biseccion fuel a0 b0 tol0 max_iter0 = Some r ->
  Forall (fun row => row_c row == (b0 - a0) / 2 ^ row_n row) (trace r) /\
  (forall e o, r = Finished e o ->
     half_width e == (b0 - a0) / 2 ^ iteraciones e).
Proof.
  unfold biseccion. destruct (check_bracket a0 b0) as [o|].
  { intros [= <-]. split; [constructor|discriminate]. }
  intros Hrun.
  set (Inv := fun e : Env =>
    (0 <= iteraciones e)%Z /\
    b_iter e - a_iter e == (b0 - a0) / 2 ^ iteraciones e /\
    Forall (fun row => row_c row == (b0 - a0) / 2 ^ row_n row) (rows e)).
  set (Post := fun (e : Env) (_ : Outcome) =>
    Forall (fun row => row_c row == (b0 - a0) / 2 ^ row_n row) (rows e) /\
    half_width e == (b0 - a0) / 2 ^ iteraciones e).
  destruct (while_true_inv Inv Post) with (4 := Hrun)
    as (e' & o' & -> & Hrows & Hw).
  - intros e1 e2 (H0 & Hw & Hrows) Hb. unfold Inv.
    pose proof (half_width_next e1 _ _ H0 Hw) as Hc.
    by_pass e1 Hb; (split; [lia|split]);
      try (apply Forall_snoc; [assumption|exact Hc]);
      rewrite <- Hc; unfold midpoint, half_width; field.
  - intros e1 e2 o2 (H0 & Hw & Hrows) Hb. unfold Post.
    pose proof (half_width_next e1 _ _ H0 Hw) as Hc.
    by_pass e1 Hb; (split; [|exact Hc]); try assumption;
      (apply Forall_snoc; [assumption|exact Hc]).
  - unfold Inv. simpl. repeat split; [lia| |constructor].
    field.
  - split; [exact Hrows|]. intros e o [= <- <-]. exact Hw.
Qed.

(** C9. The widget values [a] and [b] are never assigned: whichever
    [break] ends the loop, they still hold the values the run started with
    (a run stopped by the bracket check has assigned nothing at all). *)
Theorem bounds_not_mutated (fuel : nat) (a0 b0 tol0 : Q) (max_iter0 : Z)
    (e : Env) (o : Outcome) :
  biseccion fuel a0 b0 tol0 max_iter0 = Some (Finished e o) ->
  a e = a0 /\ b e = b0.
Proof.
  unfold biseccion. destruct (check_bracket a0 b0); [discriminate|].
  intros Hrun.
  destruct (while_true_inv (fun e => a e = a0 /\ b e = b0)
                           (fun e _ => a e = a0 /\ b e = b0))
    with (4 := Hrun) as (e' & o' & [= <- <-] & Hab).
  - intros e1 e2 Hab Hb. by_pass e1 Hb; exact Hab.
  - intros e1 e2 o2 Hab Hb. by_pass e1 Hb; exact Hab.
  - simpl. auto.
  - exact Hab.
Qed.

(** C4. Undefined midpoint: a run that leaves the loop holds coherent rows
    numbered from 1; when it leaves on an undefined midpoint in pass [n] the
    rows stop at [n - 1] (none at all for [n = 1]), whereas the three other
    breaks leave the row of pass [n] as the last one; and the loop is left
    on an undefined midpoint whenever the last midpoint is undefined. *)
Theorem undefined_midpoint_drops_row (fuel : nat) (a0 b0 tol0 : Q) (max_iter0 : Z)
    (e : Env) (o : Outcome) :
  biseccion fuel a0 b0 tol0 max_iter0 = Some (Finished e o) ->
  Forall (row_coherent f_lambda) (rows e) /\
  (f (midpoint e) = None -> o = UndefinedEncountered (midpoint e) (iteraciones e)) /\
  match o with
  | UndefinedEncountered x n =>
      f (midpoint e) = None /\ x = midpoint e /\ n = iteraciones e /\
      map row_n (rows e) = indices (n - 1) /\
      (n = 1%Z -> rows e = [])
  | ExactRoot x n | ApproximateRoot x _ n =>
      x = midpoint e /\ n = iteraciones e /\
      map row_n (rows e) = indices n /\
      exists rs v, f (midpoint e) = Some v /\
        rows e = rs ++ [mkRow n (a_iter e) (b_iter e) (half_width e) (midpoint e) v]
  | MaxIterationsReached _ x =>
      x = midpoint e /\
      map row_n (rows e) = indices (iteraciones e) /\
      exists rs v, f (midpoint e) = Some v /\
        rows e = rs ++ [mkRow (iteraciones e) (a_iter e) (b_iter e)
                              (half_width e) (midpoint e) v]
  | InvalidBracket _ => False
  end.
Proof.
  unfold biseccion. destruct (check_bracket a0 b0); [discriminate|].
  intros Hrun.
  set (Inv := fun e : Env =>
    (0 <= iteraciones e)%Z /\
    map row_n (rows e) = indices (iteraciones e) /\
    Forall (row_coherent f_lambda) (rows e)).
  pattern e, o.
  match goal with |- ?P e o =>
    destruct (while_true_inv Inv P) with (4 := Hrun)
      as (e' & o' & [= <- <-] & Hpost)
  end; [| | |exact Hpost]; cbv beta.
  - intros e1 e2 (H0 & Hn & Hrows) Hb. unfold Inv.
    by_pass e1 Hb;
      (split; [lia|split;
        [rewrite map_app, Hn, indices_succ by assumption; reflexivity
        |apply Forall_snoc; [assumption|repeat split; assumption]]]).
  - intros e1 e2 o2 (H0 & Hn & Hrows) Hb.
    assert (Hrow : forall v, f (midpoint e1) = Some v ->
              Forall (row_coherent f_lambda)
                (rows e1 ++ [mkRow (iteraciones e1 + 1) (a_iter e1) (b_iter e1)
                                   (half_width e1) (midpoint e1) v])).
    { intros v Hv. apply Forall_snoc; [assumption|repeat split; assumption]. }
    assert (Hidx : forall v,
              map row_n (rows e1 ++ [mkRow (iteraciones e1 + 1) (a_iter e1) (b_iter e1)
                                           (half_width e1) (midpoint e1) v])
              = indices (iteraciones e1 + 1)).
    { intros v. rewrite map_app, Hn, indices_succ by assumption. reflexivity. }
    by_pass e1 Hb; change (midpoint _) with (midpoint e1);
      change (half_width _) with (half_width e1).
    + split; [assumption|]. split; [reflexivity|].
      repeat split; try assumption.
      * rewrite Hn. f_equal. lia.
      * intros Hone. assert (iteraciones e1 = 0%Z) as Hz by lia.
        rewrite Hz in Hn. destruct (rows e1); [reflexivity|discriminate].
    + split; [auto|]. split; [congruence|]. repeat split; eauto.
    + split; [auto|]. split; [congruence|]. repeat split; eauto.
    + split; [auto|]. split; [congruence|]. repeat split; eauto.
  - unfold Inv. simpl. repeat split; [lia|constructor].
Qed.


(** What does hold of the bracket in exact arithmetic: while the value at
    [a_iter] is not zero,
    the selection keeps a bracket whose end values have a product [<= 0]
    and whose left value is again not zero. *)
Lemma bracket_kept_when_left_nonzero (e e' : Env) (fa fb : Q) :
  f (a_iter e) = Some fa -> f (b_iter e) = Some fb ->
  ~ fa == 0 -> fa * fb <= 0 ->
  loop_body e = Continue e' ->
  exists fa' fb', f (a_iter e') = Some fa' /\ f (b_iter e') = Some fb' /\
                  ~ fa' == 0 /\ fa' * fb' <= 0.
Proof.
  intros Ha Hb Hnz Hle Hstep.
  by_pass e Hstep; rewrite Ha in *; simpl in *;
    match goal with
    | Hs : Qltb _ _ = true |- _ => apply Qltb_lt in Hs
    | Hs : Qltb _ _ = false |- _ => apply Qltb_ge in Hs
    end.
  - exists fa, v. repeat split; auto. lra.
  - exists v, fb. repeat split; auto.
    destruct (Qlt_le_dec 0 fa), (Qlt_le_dec 0 v), (Qlt_le_dec 0 fb); nra.
Qed.

(** ** Further properties of the run *)

(** Invariant reasoning on a whole run that entered the loop. *)
Lemma biseccion_inv (Inv : Env -> Prop) (Post : Env -> Outcome -> Prop)
    (a0 b0 tol0 : Q) (max_iter0 : Z) :
  (check_bracket a0 b0 = None -> Inv (init a0 b0 tol0 max_iter0)) ->
  (forall e e', Inv e -> loop_body e = Continue e' -> Inv e') ->
  (forall e e' o, Inv e -> loop_body e = Break e' o -> Post e' o) ->
  forall fuel e o,
    biseccion fuel a0 b0 tol0 max_iter0 = Some (Finished e o) -> Post e o.
Proof.
  intros Hinit Hstep Hexit fuel e o. unfold biseccion.
  destruct (check_bracket a0 b0) eqn:Hc; [discriminate|].
  intros Hrun.
  destruct (while_true_inv Inv Post Hstep Hexit fuel _ _ (Hinit eq_refl) Hrun)
    as (e' & o' & [= <- <-] & Hpost).
  exact Hpost.
Qed.

(** X1. A bound at which the formula has no finite real value stops the
    run with "endpoint undefined" before the sign test and before any
    pass, whatever the other bound gives. *)
Theorem undefined_endpoint_rejected (fuel : nat) (a0 b0 tol0 : Q) (max_iter0 : Z) :
  f a0 = None \/ f b0 = None ->
  biseccion fuel a0 b0 tol0 max_iter0
    = Some (Stopped (InvalidBracket EndpointUndefined)).
Proof.
  intros H. unfold biseccion, check_bracket.
  destruct H as [H|H]; rewrite H; [reflexivity|].
  destruct (f a0); reflexivity.
Qed.

Lemma final_row_snoc (rs : list Row) (r : Row) : final_row (rs ++ [r]) = Some r.
Proof.
  induction rs as [|r0 rs IH]; [reflexivity|].
  simpl. destruct (rs ++ [r]) eqn:E; [|exact IH].
  destruct rs; discriminate.
Qed.

Lemma chained_snoc (rs : list Row) (r' : Row) :
  chained rs -> (forall r, final_row rs = Some r -> halves r r') ->
  chained (rs ++ [r']).
Proof.
  induction rs as [|r0 rs IH]; intros Hc Hlast; [exact I|].
  destruct rs as [|r1 rs].
  - simpl. split; [apply Hlast; reflexivity|exact I].
  - destruct Hc as (H01 & Hc).
    change (halves r0 r1 /\ chained ((r1 :: rs) ++ [r'])).
    split; [exact H01|]. apply IH; [exact Hc|exact Hlast].
Qed.

(** X4. The rows are chained: the first row holds the bracket as entered,
    and the bracket of every later row is the left or the right half of
    the bracket of the row before it. *)
Theorem rows_are_chained (fuel : nat) (a0 b0 tol0 : Q) (max_iter0 : Z)
    (r : Result) :
  biseccion fuel a0 b0 tol0 max_iter0 = Some r ->
  chained (trace r) /\
  match trace r with
  | first :: _ => row_a first = a0 /\ row_b first = b0
  | [] => True
  end.
Proof.
  intros Hrun. destruct r as [o|e o]; [split; exact I|]. simpl.
  set (Hd := fun rs : list Row =>
    match rs with
    | first :: _ => row_a first = a0 /\ row_b first = b0
    | [] => True
    end).
  set (Inv := fun e : Env =>
    chained (rows e) /\ Hd (rows e) /\
    match final_row (rows e) with
    | Some r => (a_iter e = row_a r /\ b_iter e = row_x r) \/
                (a_iter e = row_x r /\ b_iter e = row_b r)
    | None => rows e = [] /\ a_iter e = a0 /\ b_iter e = b0
    end).
  assert (Hsnoc : forall e v, Inv e ->
    let rs := rows e ++ [mkRow (iteraciones e + 1) (a_iter e) (b_iter e)
                               (half_width e) (midpoint e) v] in
    chained rs /\ Hd rs).
  { intros e1 v (Hc & Hh & Hl). split.
    - apply chained_snoc; [exact Hc|]. intros r0 Hr0. rewrite Hr0 in Hl.
      unfold halves. simpl. exact Hl.
    - destruct (rows e1) as [|r1 rs] eqn:E; [|exact Hh].
      simpl in Hl. simpl. destruct Hl as (_ & -> & ->). auto. }
  apply (biseccion_inv Inv (fun e _ => chained (rows e) /\ Hd (rows e))
           a0 b0 tol0 max_iter0) with (4 := Hrun).
  - intros _. unfold Inv. simpl. auto.
  - intros e1 e2 Hinv Hb. unfold Inv.
    by_pass e1 Hb;
      (destruct (Hsnoc e1 v Hinv) as (Hc' & Hh');
       split; [exact Hc'|split; [exact Hh'|]];
       rewrite final_row_snoc; simpl; auto).
  - intros e1 e2 o2 Hinv Hb.
    by_pass e1 Hb; try (exact (Hsnoc e1 v Hinv)).
    destruct Hinv as (Hc & Hh & _). auto.
Qed.

(** X5. An exact root is reported only at a point where the formula is
    exactly zero, and a zero value can only stand in the last row of a run
    that reported an exact root: every earlier row has a nonzero value. *)
Theorem exact_root_is_zero (fuel : nat) (a0 b0 tol0 : Q) (max_iter0 : Z)
    (e : Env) (o : Outcome) :
  biseccion fuel a0 b0 tol0 max_iter0 = Some (Finished e o) ->
  (forall x n, o = ExactRoot x n -> exists v, f x = Some v /\ v == 0) /\
  Forall (fun row => row_fx row == 0 ->
                     row_n row = iteraciones e /\
                     o = ExactRoot (row_x row) (row_n row)) (rows e).
Proof.
  intros Hrun.
  set (Inv := fun e : Env => Forall (fun row => ~ row_fx row == 0) (rows e)).
  pattern e, o.
  match goal with |- ?P e o =>
    apply (biseccion_inv Inv P a0 b0 tol0 max_iter0) with (4 := Hrun)
  end; cbv beta.
  - intros _. constructor.
  - intros e1 e2 Hrows Hb. unfold Inv.
    by_pass e1 Hb; (apply Forall_snoc; [assumption|simpl; assumption]).
  - intros e1 e2 o2 Hrows Hb.
    assert (Hold : forall (n : Z) (o' : Outcome),
              Forall (fun row => row_fx row == 0 ->
                                 row_n row = n /\ o' = ExactRoot (row_x row) (row_n row))
                     (rows e1)).
    { intros n o'. eapply Forall_impl; [|exact Hrows].
      intros row Hnz Hz. contradiction. }
    by_pass e1 Hb; (split; [intros x n [= <- <-] || (intros x n; discriminate)|]);
      try (exists v; auto);
      try apply Hold;
      (apply Forall_snoc; [apply Hold|simpl; intros Hz; auto; contradiction]).
Qed.

(** X7. The iteration cap is reported only when the last midpoint value is
    defined and nonzero and the tolerance is not met, with the cap as
    entered, and never before [max_iter] passes: for [max_iter >= 1] after
    exactly [max_iter] of them. *)
Theorem cap_reported_at_max_iter (fuel : nat) (a0 b0 tol0 : Q)
    (max_iter0 : Z) (e : Env) (m : Z) (x : Q) :
  biseccion fuel a0 b0 tol0 max_iter0
    = Some (Finished e (MaxIterationsReached m x)) ->
  m = max_iter0 /\ x = midpoint e /\
  (exists v, f x = Some v /\ ~ v == 0) /\
  tol0 <= half_width e /\
  (max_iter0 <= iteraciones e)%Z /\
  ((1 <= max_iter0)%Z -> iteraciones e = max_iter0).
Proof.
  intros Hrun.
  set (Inv := fun e : Env =>
    tol e = tol0 /\ max_iter e = max_iter0 /\
    (iteraciones e = 0 \/ iteraciones e < max_iter0)%Z).
  set (Post := fun (e : Env) (o : Outcome) =>
    forall m x, o = MaxIterationsReached m x ->
      m = max_iter0 /\ x = midpoint e /\
      (exists v, f x = Some v /\ ~ v == 0) /\
      tol0 <= half_width e /\
      (max_iter0 <= iteraciones e)%Z /\
      ((1 <= max_iter0)%Z -> iteraciones e = max_iter0)).
  apply (biseccion_inv Inv Post a0 b0 tol0 max_iter0) with (4 := Hrun);
    [| | |reflexivity].
  - intros _. unfold Inv. simpl. auto.
  - intros e1 e2 (Ht & Hm & Hlt) Hb. unfold Inv.
    by_pass e1 Hb; repeat split; try reflexivity; lia.
  - intros e1 e2 o2 (Ht & Hm & Hlt) Hb. unfold Post.
    by_pass e1 Hb; intros m' x' Ho; try discriminate.
    injection Ho as <- <-.
    repeat split; auto; try lia.
    exists v. auto.
Qed.

End Properties.

(** ** The properties on concrete runs *)

(** [f(x) = x**2 - 2] on [0, 2] with [tol = 0.001] and at most 50 passes. *)
Lemma termination_bound_witness :
  0 < 1 # 1000 /\ (1 <= 50)%Z /\
  exists e o,
    biseccion f_square_minus_two 50 0 2 (1 # 1000) 50 = Some (Finished e o) /\
    (1 <= iteraciones e <= 50)%Z.
Proof.
  split; [reflexivity|split; [lia|]].
  destruct (termination_bound f_square_minus_two 0 2 (1 # 1000) 50)
    as (e & o & Hrun & _ & Hn & _);
    [reflexivity | lia | vm_compute; reflexivity |].
  exists e, o. split; [apply Hrun; lia|exact Hn].
Defined.

(** Three passes on [f(x) = x**2 - 2]: the rows hold 1, 1/2 and 1/4. *)
Lemma half_width_halves_witness :
  exists r,
    biseccion f_square_minus_two 3 0 2 (1 # 1000) 3 = Some r /\
    length (trace r) = 3%nat /\
    Forall (fun row => row_c row == (2 - 0) / 2 ^ row_n row) (trace r).
Proof.
  eexists. split; [vm_compute; reflexivity|]. split; [reflexivity|].
  refine (proj1 (half_width_halves f_square_minus_two 3 0 2 (1 # 1000) 3 _ _)).
  vm_compute. reflexivity.
Defined.

(** Scenario C: [f(x) = 1/x] on [-1, 1]; the first midpoint is 0. *)
Lemma undefined_midpoint_drops_row_witness :
  exists e x n,
    biseccion f_inverse 1 (-1) 1 (1 # 100) 100
      = Some (Finished e (UndefinedEncountered x n)) /\
    n = 1%Z /\ rows e = [].
Proof.
  exists (mkEnv (-1) 1 (1 # 100) 100 1 [] (-1) 1), (-1 + (1 - -1) / 2), 1%Z.
  split; [reflexivity|]. split; [reflexivity|].
  destruct (undefined_midpoint_drops_row f_inverse 1 (-1) 1 (1 # 100) 100
              (mkEnv (-1) 1 (1 # 100) 100 1 [] (-1) 1)
              (UndefinedEncountered (-1 + (1 - -1) / 2) 1) eq_refl)
    as (_ & _ & _ & _ & _ & _ & Hempty).
  apply Hempty. reflexivity.
Defined.


(** Three passes on [f(x) = x**2 - 2]: [a] and [b] are still 0 and 2 while
    the bracket has moved. *)
Lemma bounds_not_mutated_witness :
  exists e o,
    biseccion f_square_minus_two 3 0 2 (1 # 1000) 3 = Some (Finished e o) /\
    a e = 0 /\ b e = 2 /\ ~ a_iter e == 0.
Proof.
  eexists _, _. split; [vm_compute; reflexivity|].
  destruct (bounds_not_mutated f_square_minus_two 3 0 2 (1 # 1000) 3 _ _ eq_refl)
    as (Ha & Hb).
  split; [exact Ha|split; [exact Hb|discriminate]].
Defined.

(** C7, as stated, fails: Scenario D never ends on the iteration cap. *)
Lemma scenario_D_not_max_iter :
  ~ (exists fuel e x,
       biseccion f_minus_one fuel 0 2 (1 # 1000000000) 2
         = Some (Finished e (MaxIterationsReached 2 x)) /\
       iteraciones e = 2%Z).
Proof.
  intros (fuel & e & x & Hrun & _).
  destruct fuel as [|fuel]; vm_compute in Hrun; discriminate.
Qed.

(** C7, as the code has it: for [f(x) = x - 1], [a = 0], [b = 2],
    [tol = 1e-9], [max_iter = 2], the first midpoint is 1 and [f(1) = 0]:
    the run ends with the exact root 1 after one pass and one row. *)
Theorem scenario_D_exact_root :
  exists e x,
    (forall fuel, biseccion f_minus_one (S fuel) 0 2 (1 # 1000000000) 2
                  = Some (Finished e (ExactRoot x 1))) /\
    x == 1 /\ iteraciones e = 1%Z /\
    exists v, map row_fx (rows e) = [v] /\ v == 0.
Proof.
  exists (mkEnv 0 2 (1 # 1000000000) 2 1
            [mkRow 1 0 2 ((2 - 0) / 2) (0 + (2 - 0) / 2) (0 + (2 - 0) / 2 - 1)]
            0 2),
         (0 + (2 - 0) / 2).
  split; [intros fuel; reflexivity|].
  split; [reflexivity|]. split; [reflexivity|].
  eexists. split; reflexivity.
Qed.

(** C10 on [f(x) = x], [a = 0], [b = 4], [tol = 0.5]: the bracket check
    passes on the product 0, the first selection moves [a_iter] to 2, and
    the bracket [2, 4] has end values of the same sign; the run then
    reports 3.75 as an approximate root of [x]. *)
Theorem left_endpoint_root_loses_bracket :
  check_bracket f_identity 0 4 = None /\
  (exists e1,
     loop_body f_identity (init 0 4 (1 # 2) 100) = Continue e1 /\
     a_iter e1 == 2 /\ b_iter e1 == 4 /\
     fgt0 (fmul (f f_identity (a_iter e1)) (f f_identity (b_iter e1))) = true) /\
  (exists e x n,
     biseccion f_identity 100 0 4 (1 # 2) 100
       = Some (Finished e (ApproximateRoot x (1 # 2) n)) /\
     x == 15 # 4 /\ n = 4%Z).
Proof.
  split; [reflexivity|]. split.
  - eexists. split; [vm_compute; reflexivity|].
    vm_compute. repeat split.
  - eexists _, _, _. split; [vm_compute; reflexivity|].
    vm_compute. repeat split.
Qed.

(** ** The further properties on concrete runs *)

(** [f(x) = 1/x] with the lower bound at 0. *)
Lemma undefined_endpoint_rejected_witness :
  biseccion f_inverse 0 0 1 (1 # 100) 100
    = Some (Stopped (InvalidBracket EndpointUndefined)).
Proof.
  apply (undefined_endpoint_rejected f_inverse 0 0 1 (1 # 100) 100).
  left. reflexivity.
Defined.

Lemma rows_are_chained_witness :
  exists r,
    biseccion f_square_minus_two 3 0 2 (1 # 1000) 3 = Some r /\
    length (trace r) = 3%nat /\ chained (trace r).
Proof.
  eexists. split; [vm_compute; reflexivity|]. split; [reflexivity|].
  refine (proj1 (rows_are_chained f_square_minus_two 3 0 2 (1 # 1000) 3 _ _)).
  vm_compute. reflexivity.
Defined.

(** [f(x) = x - 1] on [0, 2]: the exact root 1 is a zero of the formula. *)
Lemma exact_root_is_zero_witness :
  exists e x n,
    biseccion f_minus_one 1 0 2 (1 # 10) 2 = Some (Finished e (ExactRoot x n)) /\
    exists v, f f_minus_one x = Some v /\ v == 0.
Proof.
  eexists _, _, _. split; [vm_compute; reflexivity|].
  refine (proj1 (exact_root_is_zero f_minus_one 1 0 2 (1 # 10) 2 _ _ _) _ _ eq_refl).
  vm_compute. reflexivity.
Defined.

(** The same formula with [tol = 0.001] and a cap of 2 passes. *)
Lemma cap_reported_at_max_iter_witness :
  (1 <= 2)%Z /\
  exists e m x,
    biseccion f_square_minus_two 2 0 2 (1 # 1000) 2
      = Some (Finished e (MaxIterationsReached m x)) /\
    iteraciones e = 2%Z /\ 1 # 1000 <= half_width e.
Proof.
  split; [lia|].
  eexists _, _, _. split; [vm_compute; reflexivity|].
  refine ((fun H => conj (proj2 (proj2 (proj2 (proj2 (proj2 H)))) _)
                         (proj1 (proj2 (proj2 (proj2 H)))))
            (cap_reported_at_max_iter f_square_minus_two
               2 0 2 (1 # 1000) 2 _ _ _ _)).
  - lia.
  - vm_compute. reflexivity.
Defined.


(** * Properties of the script in binary64 *)

Section Binary64Properties.

Import PrimFloat FloatOps SpecFloat FloatAxioms Binary64.

Variable f_lambda : float -> py pyval.

Local Abbreviation f := (f f_lambda).
Local Abbreviation check_bracket := (check_bracket f_lambda).
Local Abbreviation loop_body := (loop_body f_lambda).
Local Abbreviation while_true := (while_true f_lambda).
Local Abbreviation biseccion := (biseccion f_lambda).
Local Abbreviation selected := (selected f_lambda).
Local Abbreviation rows_selected := (rows_selected f_lambda).

(** A float that equals zero is not below zero. *)
Lemma float_zero_not_negative (x : float) :
  eqb x zero = true -> ltb x zero = false.
Proof.
  rewrite eqb_spec, ltb_spec. unfold SFeqb, SFltb.
  destruct (SFcompare (Prim2SF x) (Prim2SF zero)) as [[| |]|];
    intros H; congruence.
Qed.



(** ** The selection, row by row *)

Lemma final_row_app (rs : list Row) (r : Row) :
  final_row (rs ++ [r]) = Some r.
Proof.
  induction rs as [|r0 rs IH]; [reflexivity|].
  cbn [app final_row]. destruct (rs ++ [r]) eqn:E; [|exact IH].
  destruct rs; discriminate.
Qed.

Lemma rows_selected_app (rs : list Row) (r' : Row) :
  rows_selected rs ->
  (forall r, final_row rs = Some r -> selected r (row_a r') (row_b r')) ->
  rows_selected (rs ++ [r']).
Proof.
  induction rs as [|r0 rs IH]; intros Hs Hlast; [exact I|].
  destruct rs as [|r1 rs].
  - split; [apply Hlast; reflexivity|exact I].
  - destruct Hs as (H01 & Hs).
    change (selected r0 (row_a r1) (row_b r1) /\ rows_selected ((r1 :: rs) ++ [r'])).
    split; [exact H01|]. apply IH; [exact Hs|exact Hlast].
Qed.

(** What one pass that does not raise has done. *)
Lemma loop_body_returns (e : Env) (s : Step) :
  loop_body e = Returns s ->
  let c := div (sub (b_iter e) (a_iter e)) two in
  let x_new := add (a_iter e) c in
  let row := mkRow (iteraciones e + 1) (a_iter e) (b_iter e) c x_new (f x_new) in
  match s with
  | Continue e' =>
      rows e' = rows e ++ [row] /\ selected row (a_iter e') (b_iter e') /\
      np_isnan (f x_new) = Returns false
  | Break e' o =>
      a_iter e' = a_iter e /\ b_iter e' = b_iter e /\
      match o with
      | UndefinedEncountered _ _ => rows e' = rows e
      | _ => rows e' = rows e ++ [row] /\ np_isnan (f x_new) = Returns false
      end
  end.
Proof.
  unfold loop_body, Binary64.loop_body, bind. cbv zeta.
  set (c := div (sub (b_iter e) (a_iter e)) two).
  set (x_new := add (a_iter e) c).
  destruct (np_isnan (f x_new)) as [[|]|]; [| |discriminate].
  { intros [= <-]. cbn. auto. }
  destruct (py_eq0 (f x_new)) as [[|]|]; [| |discriminate].
  { intros [= <-]. cbn. auto. }
  destruct (ltb c (tol e)).
  { intros [= <-]. cbn. auto. }
  destruct (iteraciones e + 1 >=? max_iter e)%Z.
  { intros [= <-]. cbn. auto. }
  destruct (py_mul (f (a_iter e)) (f x_new)) as [product|] eqn:Hp;
    [|discriminate].
  destruct (py_lt0 product) as [negative|] eqn:Hn; [|discriminate].
  destruct negative; intros [= <-]; cbn;
    (split; [reflexivity|split; [|reflexivity]]);
    unfold selected, Binary64.selected; cbn;
    eexists _, _; (split; [exact Hp|split; [exact Hn|]]); cbn; auto.
Qed.

Lemma while_true_invariant (Inv : Env -> Prop) (Post : Env -> Outcome -> Prop) :
  (forall e e', Inv e -> loop_body e = Returns (Continue e') -> Inv e') ->
  (forall e e' o, Inv e -> loop_body e = Returns (Break e' o) -> Post e' o) ->
  forall fuel e e' o,
    Inv e -> while_true fuel e = Some (Returns (e', o)) -> Post e' o.
Proof.
  intros Hstep Hexit fuel.
  induction fuel as [|fuel IH]; intros e e' o Hinv Hrun; [discriminate|].
  cbn [Binary64.while_true] in Hrun.
  destruct (loop_body e) as [[e1|e1 o1]|] eqn:Hb.
  - eapply IH; [|exact Hrun]. eapply Hstep; eassumption.
  - injection Hrun as <- <-. eapply Hexit; eassumption.
  - discriminate.
Qed.

(** The selection along a run that left the loop through a [break]. *)
Lemma finished_run_selected (fuel : nat) (a0 b0 tol0 : float) (max_iter0 : Z)
    (e : Env) (o : Outcome) :
  biseccion fuel a0 b0 tol0 max_iter0 = Some (Finished e o) ->
  rows_selected (rows e) /\
  forall last, final_row (rows e) = Some last ->
    match o with
    | UndefinedEncountered _ _ => selected last (a_iter e) (b_iter e)
    | _ => a_iter e = row_a last /\ b_iter e = row_b last
    end.
Proof.
  unfold biseccion, Binary64.biseccion.
  destruct (check_bracket a0 b0); [discriminate|].
  destruct (while_true fuel (init a0 b0 tol0 max_iter0))
    as [[[e1 o1]|]|] eqn:Hw; try discriminate.
  intros [= <- <-].
  set (Inv := fun e : Env =>
    rows_selected (rows e) /\
    forall last, final_row (rows e) = Some last ->
                 selected last (a_iter e) (b_iter e)).
  pattern e1, o1.
  match goal with |- ?P e1 o1 =>
    apply (while_true_invariant Inv P) with (4 := Hw)
  end; cbv beta.
  - intros e e' (Hs & Hl) Hb. apply loop_body_returns in Hb.
    cbv zeta in Hb. destruct Hb as (Hrows & Hsel & _). unfold Inv.
    rewrite Hrows. split.
    + apply rows_selected_app; [exact Hs|exact Hl].
    + intros last. rewrite final_row_app. intros [= <-]. exact Hsel.
  - intros e e' o (Hs & Hl) Hb. apply loop_body_returns in Hb.
    cbv zeta in Hb. destruct Hb as (Ha & Hb' & Hrows).
    destruct o; try destruct Hrows as (Hrows & _); rewrite Hrows, ?Ha, ?Hb';
      try (split; [exact Hs|exact Hl]);
      (split; [apply rows_selected_app; [exact Hs|exact Hl]|]);
      intros last; rewrite final_row_app; intros [= <-]; cbn; auto.
  - unfold Inv. cbn. split; [exact I|]. intros last. discriminate.
Qed.


(** ** What the rows hold *)

(** A value of [f] that passes the nan test is a finite float or an int
    within 64 bits. *)
Lemma f_defined_value (x : float) :
  np_isnan (f x) = Returns false ->
  (exists y, f x = PyFloat y /\ is_finite y = true) \/
  (exists n, f x = PyInt n /\ fits_64_bits n = true).
Proof.
  unfold f, Binary64.f, try_except, bind, isinstance_complex,
    np_isnan, np_isinf, is_finite.
  destruct (f_lambda x) as [[y|n|re im|]|]; try discriminate.
  - destruct (is_nan y) eqn:Hn; [discriminate|].
    destruct (is_infinity y) eqn:Hi; [discriminate|].
    intros _. left. exists y. rewrite Hn, Hi. auto.
  - destruct (fits_64_bits n) eqn:Hr; [|discriminate].
    intros _. right. eauto.
Qed.


End Binary64Properties.

(** ** The binary64 properties on concrete runs *)

Section Binary64Runs.

Import PrimFloat FloatOps SpecFloat Binary64.
Local Open Scope float_scope.







End Binary64Runs.

